(** * webflow-mcp-server: the request-handling surface of [src/index.ts]

    A shallow embedding of the two tool handlers ([get_site], [get_sites]),
    of the [list_tools] and [call_tool] request handlers, of the argument
    schema and of the text formatting, followed by the properties the
    specification states about them.

    Strings are byte strings (the source text is UTF-8, so the bullet of the
    templates is three bytes).  JavaScript values of type [unknown] (tool
    arguments, thrown errors) are modelled by [value]; what the TypeScript
    types describe ([Site], the tool descriptors, the tool result) is a
    record.  A handler is a computation in [M]: it yields the effects it
    performed, in order, and either a returned value or a thrown one. *)

From Stdlib Require Import String Ascii List Bool Arith ZArith Lia.
From Stdlib Require Import Decimal DecimalString DecimalNat.
Import ListNotations.

Local Open Scope list_scope.
Local Open Scope string_scope.

(** ** Strings *)

Module Str.

(** The line feed of the template literals and of [join("\n")]. *)
Definition nl : string := String (ascii_of_nat 10) EmptyString.

(** [Array.prototype.join] on an array of strings. *)
Fixpoint join (sep : string) (l : list string) : string :=
  match l with
  | [] => ""
  | [x] => x
  | x :: rest => x ++ sep ++ join sep rest
  end.

(** [${n}] for a non-negative integer [n] such as an array length. *)
Definition of_nat (n : nat) : string := NilZero.string_of_uint (Nat.to_uint n).

(** Reading a decimal numeral back. *)
Definition to_nat (s : string) : option nat :=
  option_map Nat.of_uint (NilZero.uint_of_string s).

(** [sub] occurs in [s]. *)
Definition contains (sub s : string) : Prop :=
  exists pre post, s = pre ++ sub ++ post.

(** The strings of [items] occur in [s] one after the other, without
    overlap, in the order of the list. *)
Fixpoint in_order (items : list string) (s : string) : Prop :=
  match items with
  | [] => True
  | x :: rest => exists pre post, s = pre ++ x ++ post /\ in_order rest post
  end.

(** Deciding [in_order]: take the leftmost occurrence of each item. *)
Fixpoint strip_prefix (p s : string) : option string :=
  match p, s with
  | EmptyString, _ => Some s
  | String a p', String b s' => if Ascii.eqb a b then strip_prefix p' s' else None
  | String _ _, EmptyString => None
  end.

Fixpoint after_first (x s : string) : option string :=
  match strip_prefix x s with
  | Some rest => Some rest
  | None =>
      match s with
      | EmptyString => None
      | String _ s' => after_first x s'
      end
  end.

Fixpoint in_orderb (items : list string) (s : string) : bool :=
  match items with
  | [] => true
  | x :: rest =>
      match after_first x s with
      | Some post => in_orderb rest post
      | None => false
      end
  end.

End Str.

(** ** JavaScript values *)

(** A value of type [unknown].  Only the [typeof] of a number is ever
    observed here, so its payload is an integer.  An object is the list of
    its own properties. *)
#[warnings="-register-all"]
Inductive value : Type :=
| VUndefined
| VNull
| VBool (b : bool)
| VNum (n : Z)
| VStr (s : string)
| VArr (items : list value)
| VObj (props : list (string * value)).

(** An optional field of a typed record: absent, [null], or present. *)
Inductive nullable (A : Type) : Type :=
| JsUndefined
| JsNull
| JsSome (a : A).
Arguments JsUndefined {A}.
Arguments JsNull {A}.
Arguments JsSome {A} a.

(** The properties every ordinary object inherits from [Object.prototype]. *)
Inductive ObjectPrototypeMember : Type :=
| P_constructor | P_defineGetter | P_defineSetter | P_hasOwnProperty
| P_lookupGetter | P_lookupSetter | P_isPrototypeOf
| P_propertyIsEnumerable | P_toString | P_valueOf | P_proto
| P_toLocaleString.

Definition Object_prototype : list (string * ObjectPrototypeMember) :=
  [ ("constructor", P_constructor);
    ("__defineGetter__", P_defineGetter);
    ("__defineSetter__", P_defineSetter);
    ("hasOwnProperty", P_hasOwnProperty);
    ("__lookupGetter__", P_lookupGetter);
    ("__lookupSetter__", P_lookupSetter);
    ("isPrototypeOf", P_isPrototypeOf);
    ("propertyIsEnumerable", P_propertyIsEnumerable);
    ("toString", P_toString);
    ("valueOf", P_valueOf);
    ("__proto__", P_proto);
    ("toLocaleString", P_toLocaleString) ].

(** First binding of [key] in an association list. *)
Fixpoint assoc {A : Type} (key : string) (l : list (string * A)) : option A :=
  match l with
  | [] => None
  | (k, a) :: rest => if String.eqb key k then Some a else assoc key rest
  end.

Definition is_some {A : Type} (o : option A) : bool :=
  match o with Some _ => true | None => false end.

(** [typeof v]. *)
Definition typeof (v : value) : string :=
  match v with
  | VUndefined => "undefined"
  | VNull => "object"
  | VBool _ => "boolean"
  | VNum _ => "number"
  | VStr _ => "string"
  | VArr _ => "object"
  | VObj _ => "object"
  end.

(** [key in v] for [v] an object or an array and [key] not the name of an
    array index or of a member of [Array.prototype]: an own property, or one
    inherited from [Object.prototype]. *)
Definition js_in (key : string) (v : value) : bool :=
  match v with
  | VObj props => is_some (assoc key props) || is_some (assoc key Object_prototype)
  | VArr _ => is_some (assoc key Object_prototype)
  | _ => false
  end.

(** [v[key]] for [v] an object and [key] a name [Object.prototype] does not
    define: the own property, or [undefined]. *)
Definition js_get (key : string) (v : value) : value :=
  match v with
  | VObj props => match assoc key props with Some x => x | None => VUndefined end
  | _ => VUndefined
  end.

(** [Array.isArray(v)]. *)
Definition is_array (v : value) : bool :=
  match v with
  | VArr _ => true
  | _ => false
  end.

(** [v === s] for a string literal [s]. *)
Definition strict_eq_str (v : value) (s : string) : bool :=
  match v with
  | VStr s' => String.eqb s' s
  | _ => false
  end.

(** [new Error(message)].  The engine's [stack] is left out. *)
Definition new_Error (message : string) : value :=
  VObj [("name", VStr "Error"); ("message", VStr message)].

(** A [TypeError] raised by the engine; its message is the engine's wording
    and is left out. *)
Definition TypeError : value := VObj [("name", VStr "TypeError")].

(** ** Effects *)

Inductive event : Type :=
| ConsoleError (args : list value)       (* console.error(...args) *)
| NewWebflowClient (accessToken : string) (* new WebflowClient({ accessToken }) *)
| SitesGet (siteId : string)             (* webflow.sites.get(siteId) *)
| SitesList.                             (* webflow.sites.list() *)

Inductive outcome (A : Type) : Type :=
| Returned (a : A)
| Thrown (error : value).
Arguments Returned {A} a.
Arguments Thrown {A} error.

(** The effects performed, oldest first, and how the computation ended. *)
Definition M (A : Type) : Type := (list event * outcome A)%type.

Definition ret {A : Type} (a : A) : M A := ([], Returned a).

Definition throw {A : Type} (error : value) : M A := ([], Thrown error).

Definition bind {A B : Type} (m : M A) (k : A -> M B) : M B :=
  match m with
  | (t, Returned a) => let (t', r) := k a in ((t ++ t')%list, r)
  | (t, Thrown e) => (t, Thrown e)
  end.

(** [try { body } catch (error) { handler error }]. *)
Definition try_catch {A : Type} (body : M A) (handler : value -> M A) : M A :=
  match body with
  | (t, Returned a) => (t, Returned a)
  | (t, Thrown e) => let (t', r) := handler e in ((t ++ t')%list, r)
  end.

Definition emit (e : event) : M unit := ([e], Returned tt).

Definition console_error (args : list value) : M unit := emit (ConsoleError args).

Notation "x <- m ;; k" := (bind m (fun x => k))
  (at level 61, m at next level, right associativity).
Notation "m ;;; k" := (bind m (fun _ => k))
  (at level 61, right associativity).

Definition events {A : Type} (m : M A) : list event := fst m.
Definition result {A : Type} (m : M A) : outcome A := snd m.

(** The event is a call of the remote API. *)
Definition is_remote_call (e : event) : bool :=
  match e with
  | SitesGet _ | SitesList => true
  | ConsoleError _ | NewWebflowClient _ => false
  end.

(** ** Argument validation (the [zod] schemas) *)

Module Zod.

(** The two kinds of issue the schemas of this server can raise. *)
Inductive ZodIssue : Type :=
| invalid_type (path : list string) (expected received : string)
| too_small (path : list string) (minimum : nat) (message : string).

(** The type name zod reports for a value. *)
Definition getParsedType (v : value) : string :=
  match v with
  | VUndefined => "undefined"
  | VNull => "null"
  | VBool _ => "boolean"
  | VNum _ => "number"
  | VStr _ => "string"
  | VArr _ => "array"
  | VObj _ => "object"
  end.

(** The message of an issue: the one given with the check, else zod's
    default wording. *)
Definition issue_message (i : ZodIssue) : string :=
  match i with
  | invalid_type _ expected received =>
      if String.eqb received "undefined" then "Required"
      else "Expected " ++ expected ++ ", received " ++ received
  | too_small _ _ message => message
  end.

Definition issue_path (i : ZodIssue) : list string :=
  match i with
  | invalid_type path _ _ => path
  | too_small path _ _ => path
  end.

Definition issue_value (i : ZodIssue) : value :=
  let common :=
    [("path", VArr (map VStr (issue_path i))); ("message", VStr (issue_message i))] in
  match i with
  | invalid_type _ expected received =>
      VObj (("code", VStr "invalid_type") :: ("expected", VStr expected)
            :: ("received", VStr received) :: common)
  | too_small _ minimum _ =>
      VObj (("code", VStr "too_small") :: ("minimum", VNum (Z.of_nat minimum))
            :: ("type", VStr "string") :: ("inclusive", VBool true)
            :: ("exact", VBool false) :: common)
  end.

(** The error [parse] throws.  Its [message] getter, a JSON rendering of
    the issues, is left out: the issues carry the messages. *)
Definition ZodError (issues : list ZodIssue) : value :=
  VObj [("name", VStr "ZodError"); ("issues", VArr (map issue_value issues))].

(** A schema producing an [A]: given the path of the input inside the
    parsed value, it yields the issues found or the parsed output. *)
Definition ZodType (A : Type) : Type := list string -> value -> list ZodIssue + A.

(** [z.string().min(minimum, message)].  [String.length] counts bytes where
    JavaScript counts UTF-16 units; the two agree on which strings are
    empty, and [min(1, ...)] is the only use. *)
Definition string_min (minimum : nat) (message : string) : ZodType string :=
  fun path input =>
    match input with
    | VStr s =>
        if Nat.ltb (String.length s) minimum then inl [too_small path minimum message]
        else inr s
    | _ => inl [invalid_type path "string" (getParsedType input)]
    end.

(** [z.object({ key: field })]: unknown keys are dropped. *)
Definition object1 {A : Type} (key : string) (field : ZodType A) : ZodType A :=
  fun path input =>
    match input with
    | VObj _ => field (path ++ [key])%list (js_get key input)
    | _ => inl [invalid_type path "object" (getParsedType input)]
    end.

(** [z.object({})]. *)
Definition object0 : ZodType unit :=
  fun path input =>
    match input with
    | VObj _ => inr tt
    | _ => inl [invalid_type path "object" (getParsedType input)]
    end.

(** [schema.parse(input)]. *)
Definition parse {A : Type} (schema : ZodType A) (input : value) : M A :=
  match schema [] input with
  | inl issues => throw (ZodError issues)
  | inr a => ret a
  end.

End Zod.

(** [schemas.toolInputs.getSite]; the parsed output is [{ siteId }]. *)
Definition getSite : Zod.ZodType string :=
  Zod.object1 "siteId" (Zod.string_min 1 "Site ID is required").

(** [schemas.toolInputs.getSites]. *)
Definition getSites : Zod.ZodType unit := Zod.object0.

(** ** Sites, the remote client and the host *)

(** A [Date]: its time value in milliseconds, or an invalid date. *)
Inductive Date : Type :=
| DateAt (ms : Z)
| InvalidDate.

(** The site record of the remote API.  Only [id] is known to be present;
    the template literals render whatever the other fields hold. *)
Record Site : Type := {
  id : string;
  displayName : nullable string;
  shortName : nullable string;
  workspaceId : nullable string;
  createdOn : nullable Date;
  lastPublished : nullable Date;
  previewUrl : nullable string
}.

(** The [sites] of a response of [sites.list()]: an array of site records,
    or some value that is not an array. *)
Inductive SitesField : Type :=
| SitesArray (l : list Site)
| NotAnArray (v : value) (not_array : is_array v = false).

(** The response of [sites.list()]. *)
Record SitesResponse : Type := { sites : SitesField }.

(** How the remote API answers during one request. *)
Record WebflowClient : Type := {
  sites_get : string -> outcome (nullable Site);
  sites_list : outcome SitesResponse
}.

(** What the process takes from its environment: the token read at start
    and the locale-dependent rendering of dates. *)
Record Host : Type := {
  accessToken : string;
  toLocaleString : Date -> string
}.

(** ** Tool results *)

(** [{ type: "text", text }]. *)
Inductive ContentItem : Type :=
| Text (text : string).

Record ToolResult : Type := { content : list ContentItem }.

Definition ToolHandler : Type := Host -> WebflowClient -> value -> M ToolResult.

(** ** Utility functions *)

Definition isWebflowApiError (error : value) : bool :=
  negb (match error with VNull => true | _ => false end)
  && String.eqb (typeof error) "object"
  && js_in "code" error.

Definition formatDate (host : Host) (date : nullable Date) : string :=
  match date with
  | JsSome d => toLocaleString host d
  | JsUndefined | JsNull => "N/A"
  end.

(** [${x}] for an optional string. *)
Definition interpolate (x : nullable string) : string :=
  match x with
  | JsSome s => s
  | JsUndefined => "undefined"
  | JsNull => "null"
  end.

(** [x || fallback] for an optional string: the empty string is falsy. *)
Definition or_else (x : nullable string) (fallback : string) : string :=
  match x with
  | JsSome (String a s) => String a s
  | JsSome EmptyString | JsUndefined | JsNull => fallback
  end.

(** [Array.isArray(sites)], and the elements of [sites] when it is one. *)
Definition Array_isArray (x : SitesField) : bool :=
  match x with
  | SitesArray _ => true
  | NotAnArray _ _ => false
  end.

Definition elements (x : SitesField) : list Site :=
  match x with
  | SitesArray l => l
  | NotAnArray _ _ => []
  end.

(** [await webflow.sites.get(siteId)] and [await webflow.sites.list()]. *)
Definition await_sites_get (webflow : WebflowClient) (siteId : string)
    : M (nullable Site) :=
  ([SitesGet siteId], sites_get webflow siteId).

Definition await_sites_list (webflow : WebflowClient) : M SitesResponse :=
  ([SitesList], sites_list webflow).

(** ** Tool definitions *)

Record PropertySchema : Type := {
  property_type : string;
  property_description : string
}.

Record InputSchema : Type := {
  schema_type : string;
  properties : list (string * PropertySchema);
  required : list string
}.

Record ToolDefinition : Type := {
  name : string;
  description : string;
  inputSchema : InputSchema
}.

Definition TOOL_DEFINITIONS : list ToolDefinition :=
  [ {| name := "get_site";
       description :=
         "Retrieve detailed information about a specific Webflow site by ID, including workspace, creation date, display name, and publishing details";
       inputSchema :=
         {| schema_type := "object";
            properties :=
              [("siteId",
                {| property_type := "string";
                   property_description := "The unique identifier of the Webflow site" |})];
            required := ["siteId"] |} |};
    {| name := "get_sites";
       description :=
         "Retrieve a list of all Webflow sites accessible to the authenticated user";
       inputSchema :=
         {| schema_type := "object"; properties := []; required := [] |} |} ].

(** ** Tool handlers *)

(** The template literal of [get_site]. *)
Definition formattedSite (host : Host) (site : Site) : string :=
  "• Site Details:" ++ Str.nl ++
  "            ID: " ++ id site ++ Str.nl ++
  "            Display Name: " ++ interpolate (displayName site) ++ Str.nl ++
  "            Short Name: " ++ interpolate (shortName site) ++ Str.nl ++
  "          " ++ Str.nl ++
  "          - Workspace Information:" ++ Str.nl ++
  "            Workspace ID: " ++ interpolate (workspaceId site) ++ Str.nl ++
  "          " ++ Str.nl ++
  "          - Dates:" ++ Str.nl ++
  "            Created On: " ++ formatDate host (createdOn site) ++ Str.nl ++
  "            Last Published: " ++ formatDate host (lastPublished site) ++ Str.nl ++
  "          " ++ Str.nl ++
  "          - URLs:" ++ Str.nl ++
  "            Preview URL: " ++ or_else (previewUrl site) "N/A".

Definition get_site : ToolHandler := fun host webflow args =>
  siteId <- Zod.parse getSite args ;;
  try_catch
    (emit (NewWebflowClient (accessToken host)) ;;;
     site <- await_sites_get webflow siteId ;;
     match site with
     | JsSome site => ret {| content := [Text (formattedSite host site)] |}
     | JsUndefined | JsNull => throw (new_Error "Site not found")
     end)
    (fun error =>
       if isWebflowApiError error && strict_eq_str (js_get "code" error) "NOT_FOUND"
       then ret {| content := [Text ("Site with ID " ++ siteId ++ " not found.")] |}
       else
         console_error [VStr "Error fetching site:"; error] ;;;
         throw (new_Error "Failed to fetch site details")).

(** The callback mapped over the sites by [get_sites]. *)
Definition formattedSites_entry (host : Host) (site : Site) : string :=
  Str.nl ++
  "• Site: " ++ interpolate (displayName site) ++ Str.nl ++
  "  - ID: " ++ id site ++ Str.nl ++
  "  - Workspace: " ++ interpolate (workspaceId site) ++ Str.nl ++
  "  - Created: " ++ formatDate host (createdOn site) ++ Str.nl ++
  "  - Last Published: " ++ formatDate host (lastPublished site) ++ Str.nl ++
  "  - Preview URL: " ++ or_else (previewUrl site) "N/A" ++ Str.nl.

Definition formattedSites (host : Host) (sites : list Site) : string :=
  Str.join Str.nl (map (formattedSites_entry host) sites).

Definition get_sites : ToolHandler := fun host webflow _ =>
  try_catch
    (emit (NewWebflowClient (accessToken host)) ;;;
     response <- await_sites_list webflow ;;
     let sites := sites response in
     if negb (Array_isArray sites) || (List.length (elements sites) =? 0)%nat
     then ret {| content := [Text "No sites found for this account."] |}
     else
       ret {| content :=
                [Text ("Found " ++ Str.of_nat (List.length (elements sites))
                       ++ " sites:" ++ Str.nl ++ formattedSites host (elements sites))] |})
    (fun error =>
       console_error [VStr "Error fetching sites:"; error] ;;;
       throw (new_Error "Failed to fetch sites list")).

(** The own properties of the object literal [toolHandlers]. *)
Definition toolHandlers : list (string * ToolHandler) :=
  [("get_site", get_site); ("get_sites", get_sites)].

(** What [toolHandlers[name]] evaluates to. *)
Inductive Looked : Type :=
| Handler (h : ToolHandler)
| Inherited (m : ObjectPrototypeMember)
| Undefined.

(** [toolHandlers[name]]: an own property, else what the object inherits
    from [Object.prototype], else [undefined]. *)
Definition toolHandlers_get (name : string) : Looked :=
  match assoc name toolHandlers with
  | Some h => Handler h
  | None =>
      match assoc name Object_prototype with
      | Some m => Inherited m
      | None => Undefined
      end
  end.

(** ** Request handlers *)

(** The arguments of a [tools/call] request: absent, or a record. *)
Definition ToolArguments : Type := option (list (string * value)).

Definition args_value (args : ToolArguments) : value :=
  match args with
  | None => VUndefined
  | Some props => VObj props
  end.

(** What the [call_tool] handler hands back to the transport: the result
    of a handler of the table, or the value an inherited function returned,
    whatever its shape. *)
Inductive CallResult : Type :=
| Result (r : ToolResult)
| NotAResult (v : value).

(** [handler(args)] for [handler] a member of [Object.prototype], called
    as a plain function ([this] is [undefined]).  [Object(args)] returns an
    object argument and makes an empty object of [undefined];
    [toString] names the class of [this]; [isPrototypeOf] answers [false]
    for a non-object argument before it looks at [this]; the others convert
    [this] to an object first, and [__proto__] yields [Object.prototype]
    itself, which is not callable. *)
Definition call_inherited (m : ObjectPrototypeMember) (args : ToolArguments) : M CallResult :=
  match m with
  | P_constructor =>
      ret (NotAResult (VObj (match args with Some props => props | None => [] end)))
  | P_toString => ret (NotAResult (VStr "[object Undefined]"))
  | P_isPrototypeOf =>
      match args with
      | None => ret (NotAResult (VBool false))
      | Some _ => throw TypeError
      end
  | P_defineGetter | P_defineSetter | P_hasOwnProperty | P_lookupGetter
  | P_lookupSetter | P_propertyIsEnumerable | P_valueOf | P_proto
  | P_toLocaleString => throw TypeError
  end.

(** The handler registered for [ListToolsRequestSchema]. *)
Definition list_tools : M (list ToolDefinition) :=
  console_error [VStr "Tools requested by client"] ;;;
  ret TOOL_DEFINITIONS.

(** The handler registered for [CallToolRequestSchema]. *)
Definition call_tool (host : Host) (webflow : WebflowClient)
    (name : string) (args : ToolArguments) : M CallResult :=
  try_catch
    (match toolHandlers_get name with
     | Undefined => throw (new_Error ("Unknown tool: " ++ name))
     | Handler handler => r <- handler host webflow (args_value args) ;; ret (Result r)
     | Inherited m => call_inherited m args
     end)
    (fun error =>
       console_error [VStr ("Error executing tool " ++ name ++ ":"); error] ;;;
       throw error).

(** ** The server over a sequence of requests *)

Inductive Request : Type :=
| ListTools
| CallTool (name : string) (arguments : ToolArguments).

Inductive Response : Type :=
| Tools (tools : list ToolDefinition)
| Called (r : CallResult).

Definition handle (host : Host) (webflow : WebflowClient) (request : Request) : M Response :=
  match request with
  | ListTools => tools <- list_tools ;; ret (Tools tools)
  | CallTool name args => r <- call_tool host webflow name args ;; ret (Called r)
  end.

(** Requests are handled one after the other, each against the remote API
    as it answers at that time; a failed request does not stop the server.
    The result is the effects of the whole run and the answer to each
    request. *)
Fixpoint serve (host : Host) (requests : list (WebflowClient * Request))
    : list event * list (outcome Response) :=
  match requests with
  | [] => ([], [])
  | (webflow, request) :: rest =>
      let (t, r) := handle host webflow request in
      let (t', rs) := serve host rest in
      ((t ++ t')%list, r :: rs)
  end.

(** ** The vocabulary of the properties *)

(** The error carries the provider's not-found code: it is an object whose
    [code] property is the string [NOT_FOUND]. *)
Definition carries_not_found_code (error : value) : Prop :=
  exists props, error = VObj props /\ assoc "code" props = Some (VStr "NOT_FOUND").

(** The site record is absent. *)
Definition absent {A : Type} (x : nullable A) : Prop :=
  x = JsUndefined \/ x = JsNull.

(** No event of the list is a call of the remote API. *)
Definition no_remote_call (t : list event) : Prop :=
  existsb is_remote_call t = false.

(** The fields of a site as they are rendered, in the order identifier,
    display name, short name, workspace id, creation date, last-published
    date, preview URL. *)
Definition rendered_fields (host : Host) (site : Site) : list string :=
  [ id site;
    interpolate (displayName site);
    interpolate (shortName site);
    interpolate (workspaceId site);
    formatDate host (createdOn site);
    formatDate host (lastPublished site);
    or_else (previewUrl site) "N/A" ].

(** The labelled fields of the text of [get_site]. *)
Definition detail_fields (host : Host) (site : Site) : list string :=
  [ "ID: " ++ id site;
    "Display Name: " ++ interpolate (displayName site);
    "Short Name: " ++ interpolate (shortName site);
    "Workspace ID: " ++ interpolate (workspaceId site);
    "Created On: " ++ formatDate host (createdOn site);
    "Last Published: " ++ formatDate host (lastPublished site);
    "Preview URL: " ++ or_else (previewUrl site) "N/A" ].

(** The labelled fields of one entry of the text of [get_sites]. *)
Definition entry_fields (host : Host) (site : Site) : list string :=
  [ "Site: " ++ interpolate (displayName site);
    "ID: " ++ id site;
    "Workspace: " ++ interpolate (workspaceId site);
    "Created: " ++ formatDate host (createdOn site);
    "Last Published: " ++ formatDate host (lastPublished site);
    "Preview URL: " ++ or_else (previewUrl site) "N/A" ].

(** The record with another short name. *)
Definition with_shortName (shortName' : nullable string) (site : Site) : Site :=
  {| id := id site;
     displayName := displayName site;
     shortName := shortName';
     workspaceId := workspaceId site;
     createdOn := createdOn site;
     lastPublished := lastPublished site;
     previewUrl := previewUrl site |}.

(** A remote call of the tool fails with [error], and not with the
    not-found condition [get_site] answers for. *)
Inductive remote_failure (webflow : WebflowClient)
    : string -> ToolArguments -> value -> Prop :=
| get_site_fails (args : ToolArguments) (siteId : string) (error : value) :
    js_get "siteId" (args_value args) = VStr siteId ->
    siteId <> "" ->
    sites_get webflow siteId = Thrown error ->
    ~ carries_not_found_code error ->
    remote_failure webflow "get_site" args error
| get_sites_fails (args : ToolArguments) (error : value) :
    sites_list webflow = Thrown error ->
    remote_failure webflow "get_sites" args error.

(** The message of the error a handler raises after a failed remote call. *)
Definition generic_message (tool : string) : string :=
  if String.eqb tool "get_site" then "Failed to fetch site details"
  else "Failed to fetch sites list".

(** ** Data for the examples *)

(** A host whose date rendering is a stand-in. *)
Definition sample_host : Host :=
  {| accessToken := "token";
     toLocaleString := fun d =>
       match d with
       | DateAt _ => "1/1/2024, 12:00:00 AM"
       | InvalidDate => "Invalid Date"
       end |}.

(** The record of the example of the specification. *)
Definition demo_site : Site :=
  {| id := "abc123";
     displayName := JsSome "Demo";
     shortName := JsSome "demo";
     workspaceId := JsSome "w1";
     createdOn := JsNull;
     lastPublished := JsNull;
     previewUrl := JsNull |}.

Definition other_site : Site :=
  {| id := "def456";
     displayName := JsSome "Shop";
     shortName := JsSome "shop";
     workspaceId := JsSome "w1";
     createdOn := JsSome (DateAt 0);
     lastPublished := JsUndefined;
     previewUrl := JsSome "https://shop.example/preview.png" |}.

(** A remote API that answers every call with [r] and [l]. *)
Definition answering (r : outcome (nullable Site)) (l : outcome SitesResponse)
    : WebflowClient :=
  {| sites_get := fun _ => r; sites_list := l |}.

(** A remote API whose every call fails with [error]. *)
Definition failing (error : value) : WebflowClient :=
  answering (Thrown error) (Thrown error).

(** The error of an API that knows no such site, and a network failure. *)
Definition not_found_error : value :=
  VObj [("status", VNum 404); ("message", VStr "Site not found"); ("code", VStr "NOT_FOUND")].

Definition network_error : value :=
  VObj [("name", VStr "Error"); ("message", VStr "connect ECONNREFUSED");
        ("code", VStr "ECONNREFUSED")].

Definition demo_args : ToolArguments := Some [("siteId", VStr "abc123")].

(** ** Further vocabulary *)

(** The event is a line on the console. *)
Definition is_console_error (e : event) : bool :=
  match e with
  | ConsoleError _ => true
  | NewWebflowClient _ | SitesGet _ | SitesList => false
  end.

(** The record with another display name, and with another preview URL. *)
Definition with_displayName (displayName' : nullable string) (site : Site) : Site :=
  {| id := id site;
     displayName := displayName';
     shortName := shortName site;
     workspaceId := workspaceId site;
     createdOn := createdOn site;
     lastPublished := lastPublished site;
     previewUrl := previewUrl site |}.

Definition with_previewUrl (previewUrl' : nullable string) (site : Site) : Site :=
  {| id := id site;
     displayName := displayName site;
     shortName := shortName site;
     workspaceId := workspaceId site;
     createdOn := createdOn site;
     lastPublished := lastPublished site;
     previewUrl := previewUrl' |}.

(** ** The start of the process *)

Module Startup.

(** [process.env]: the variables that are set, with their values. *)
Definition Env : Type := list (string * string).

(** [process.env[varName]] is truthy: the variable is set and not empty. *)
Definition env_truthy (env : Env) (varName : string) : bool :=
  match assoc varName env with
  | Some (String _ _) => true
  | Some EmptyString | None => false
  end.

(** What the start of the process does, besides reading its environment. *)
Inductive step : Type :=
| Log (args : list value)               (* console.error(...args) *)
| NewServer                             (* new Server(...) *)
| SetRequestHandler (schema : string)   (* server.setRequestHandler(schema, ...) *)
| NewStdioServerTransport               (* new StdioServerTransport() *)
| ServerConnect.                        (* server.connect(transport) *)

(** How a computation of the start ends: it completes, it throws, or it
    leaves the process through [process.exit]. *)
Inductive ending (A : Type) : Type :=
| Completed (a : A)
| Raised (error : value)
| Exited (code : Z).
Arguments Completed {A} a.
Arguments Raised {A} error.
Arguments Exited {A} code.

Definition P (A : Type) : Type := (list step * ending A)%type.

Definition done {A : Type} (a : A) : P A := ([], Completed a).

Definition process_exit {A : Type} (code : Z) : P A := ([], Exited code).

Definition andthen {A B : Type} (m : P A) (k : A -> P B) : P B :=
  match m with
  | (t, Completed a) => let (t', r) := k a in ((t ++ t')%list, r)
  | (t, Raised e) => (t, Raised e)
  | (t, Exited code) => (t, Exited code)
  end.

(** [try { body } catch (error) { handler error }], and [promise.catch]:
    leaving the process is not an exception. *)
Definition catching {A : Type} (body : P A) (handler : value -> P A) : P A :=
  match body with
  | (t, Completed a) => (t, Completed a)
  | (t, Raised e) => let (t', r) := handler e in ((t ++ t')%list, r)
  | (t, Exited code) => (t, Exited code)
  end.

Definition perform (s : step) : P unit := ([s], Completed tt).

Definition log (args : list value) : P unit := perform (Log args).

(** A call into the protocol library: it is recorded, and it ends as the
    library decides. *)
Definition library_call (s : step) (r : outcome unit) : P unit :=
  match r with
  | Returned a => ([s], Completed a)
  | Thrown e => ([s], Raised e)
  end.

Local Notation "m >> k" := (andthen m (fun _ => k))
  (at level 61, right associativity).

(** How the protocol library answers during the start. *)
Record Sdk : Type := {
  new_transport : outcome unit;
  connect : outcome unit
}.

(** The initialiser of the constant [accessToken]. *)
Definition accessToken (env : Env) : outcome string :=
  match assoc "WEBFLOW_API_TOKEN" env with
  | Some (String a s) => Returned (String a s)
  | Some EmptyString | None => Thrown (new_Error "WEBFLOW_API_TOKEN is not defined")
  end.

Definition requiredEnvVars : list string := ["WEBFLOW_API_TOKEN"].

Definition missingVars (env : Env) : list string :=
  filter (fun varName => negb (env_truthy env varName)) requiredEnvVars.

Definition main (env : Env) (sdk : Sdk) : P unit :=
  catching
    ((if (0 <? List.length (missingVars env))%nat
      then
        log [VStr ("Missing required environment variables: "
                   ++ Str.join ", " (missingVars env))] >>
        process_exit 1%Z
      else done tt) >>
     log [VStr "Starting server with env vars:";
          VObj [("WEBFLOW_API_TOKEN", VStr "[REDACTED]")]] >>
     library_call NewStdioServerTransport (new_transport sdk) >>
     log [VStr "Created transport"] >>
     library_call ServerConnect (connect sdk) >>
     log [VStr "Connected to transport"] >>
     log [VStr "Webflow MCP Server running on stdio"])
    (fun error => log [VStr "Startup error:"; error] >> process_exit 1%Z).

(** The module from its first statement to its last: the token is read
    first, and an error thrown there ends the evaluation of the module.
    Nothing in between changes the environment, so [main] reads the one the
    initialiser read. *)
Definition program (env : Env) (sdk : Sdk) : P unit :=
  match accessToken env with
  | Thrown e => ([], Raised e)
  | Returned _ =>
      perform NewServer >>
      perform (SetRequestHandler "ListToolsRequestSchema") >>
      perform (SetRequestHandler "CallToolRequestSchema") >>
      catching (main env sdk)
        (fun error => log [VStr "Fatal error in main():"; error] >> process_exit 1%Z)
  end.

(** The step is a line on the console that starts with [prefix]. *)
Definition logs_prefix (prefix : string) (s : step) : Prop :=
  exists rest more, s = Log (VStr (prefix ++ rest) :: more).

(** An environment with a token, and a library that works. *)
Definition sample_env : Env := [("HOME", "/root"); ("WEBFLOW_API_TOKEN", "token")].

Definition working_sdk : Sdk :=
  {| new_transport := Returned tt; connect := Returned tt |}.

End Startup.

(** * Properties *)

(** The next field: the text up to it is [pre], the rest is found by
    unification. *)
Ltac next_field pre := exists pre; eexists; split; [reflexivity|].

(** ** Facts about strings *)

Lemma append_assoc (a b c : string) : (a ++ b) ++ c = a ++ b ++ c.
Proof.
  induction a as [|ch a IH]; simpl; [reflexivity | now rewrite IH].
Qed.

Lemma append_nil_r (a : string) : a ++ "" = a.
Proof.
  induction a as [|ch a IH]; simpl; [reflexivity | now rewrite IH].
Qed.

Lemma length_append (a b : string) :
  String.length (a ++ b) = String.length a + String.length b.
Proof.
  induction a as [|ch a IH]; simpl; [reflexivity | now rewrite IH].
Qed.

Lemma contains_middle (pre x post : string) : Str.contains x (pre ++ x ++ post).
Proof. now exists pre, post. Qed.

Lemma contains_in_order (x s : string) : Str.contains x s <-> Str.in_order [x] s.
Proof.
  split.
  - intros (pre & post & ->). exists pre, post. now split.
  - intros (pre & post & -> & _). apply contains_middle.
Qed.

(** Text in front of a string keeps what occurs in it. *)
Lemma in_order_after (items : list string) (p s : string) :
  Str.in_order items s -> Str.in_order items (p ++ s).
Proof.
  destruct items as [|x rest]; simpl; [trivial|].
  intros (pre & post & -> & H).
  exists (p ++ pre), post. split; [now rewrite append_assoc | exact H].
Qed.

Lemma in_order_cons (x : string) (rest : list string) (pre post : string) :
  Str.in_order rest post -> Str.in_order (x :: rest) (pre ++ x ++ post).
Proof. intros H. exists pre, post. now split. Qed.

Lemma in_order_join (sep : string) (l : list string) :
  Str.in_order l (Str.join sep l).
Proof.
  induction l as [|x rest IH]; [exact I|].
  destruct rest as [|y rest'].
  - exists "", "". simpl. now rewrite append_nil_r.
  - change (Str.join sep (x :: y :: rest'))
      with ("" ++ x ++ sep ++ Str.join sep (y :: rest')).
    apply in_order_cons, in_order_after, IH.
Qed.

Lemma strip_prefix_append (x post : string) :
  Str.strip_prefix x (x ++ post) = Some post.
Proof.
  induction x as [|ch x IH]; simpl.
  - now destruct post.
  - now rewrite Ascii.eqb_refl.
Qed.

Lemma strip_prefix_sound (x s rest : string) :
  Str.strip_prefix x s = Some rest -> s = x ++ rest.
Proof.
  revert s; induction x as [|ch x IH]; intros s; simpl.
  - destruct s; intros [= <-]; reflexivity.
  - destruct s as [|b s]; [discriminate|].
    destruct (Ascii.eqb_spec ch b) as [<-|]; [|discriminate].
    intros H. now rewrite (IH _ H).
Qed.

(** Of two endings of one string, the shorter ends the longer. *)
Lemma shorter_suffix (a b c d : string) :
  a ++ b = c ++ d -> String.length b <= String.length d ->
  exists q, d = q ++ b.
Proof.
  revert a; induction c as [|ch c IH]; intros a E L; simpl in E.
  - exists a. now symmetry.
  - destruct a as [|ch' a]; simpl in E.
    + exfalso. subst b. simpl in L. rewrite length_append in L. lia.
    + injection E as _ E. exact (IH a E L).
Qed.

Lemma after_first_complete (pre x post : string) :
  exists q, Str.after_first x (pre ++ x ++ post) = Some (q ++ post).
Proof.
  induction pre as [|ch pre IH].
  - exists "". simpl.
    destruct (x ++ post) eqn:E; simpl; rewrite <- E, strip_prefix_append;
      reflexivity.
  - change ((String ch pre) ++ x ++ post) with (String ch (pre ++ x ++ post)).
    simpl.
    destruct (Str.strip_prefix x (String ch (pre ++ x ++ post))) as [rest|] eqn:E.
    + apply strip_prefix_sound in E.
      destruct (@shorter_suffix (String ch pre ++ x) post x rest) as [q Hq].
      * rewrite append_assoc. exact E.
      * apply (f_equal String.length) in E. simpl in E.
        rewrite !length_append in E. lia.
      * exists q. now rewrite Hq.
    + exact IH.
Qed.

(** The decision procedure finds every ordered occurrence. *)
Lemma in_orderb_complete (items : list string) (s : string) :
  Str.in_order items s -> Str.in_orderb items s = true.
Proof.
  revert s; induction items as [|x rest IH]; intros s; simpl; [trivial|].
  intros (pre & post & -> & H).
  destruct (after_first_complete pre x post) as [q ->].
  apply IH, in_order_after, H.
Qed.

Lemma of_nat_to_nat (n : nat) : Str.to_nat (Str.of_nat n) = Some n.
Proof.
  unfold Str.to_nat, Str.of_nat.
  rewrite NilZero.usu.
  - simpl. now rewrite Unsigned.of_to.
  - rewrite <- (Unsigned.of_to n) at 1. rewrite Unsigned.to_of.
    apply DecimalFacts.unorm_nonnil.
Qed.

(** ** Facts about the handlers *)

(** Arguments with a non-empty string [siteId] pass the schema. *)
Lemma parse_getSite_valid (args : value) (siteId : string) :
  js_get "siteId" args = VStr siteId -> siteId <> "" ->
  Zod.parse getSite args = ret siteId.
Proof.
  intros H Hne.
  destruct args; try discriminate H.
  unfold Zod.parse, getSite, Zod.object1. rewrite H.
  destruct siteId as [|ch rest]; [contradiction | reflexivity].
Qed.

(** Arguments the schema rejects stop [get_site] before its [try]. *)
Lemma get_site_invalid (host : Host) (webflow : WebflowClient) (args : value)
    (issues : list Zod.ZodIssue) :
  getSite [] args = inl issues ->
  get_site host webflow args = ([], Thrown (Zod.ZodError issues)).
Proof.
  intros H. unfold get_site, Zod.parse. now rewrite H.
Qed.

(** The test of the [catch] block of [get_site]. *)
Lemma not_found_test (error : value) :
  isWebflowApiError error && strict_eq_str (js_get "code" error) "NOT_FOUND" = true
  <-> carries_not_found_code error.
Proof.
  split.
  - destruct error as [| | | | |items|props]; try discriminate.
    unfold isWebflowApiError, js_in, js_get. simpl.
    destruct (assoc "code" props) as [v|] eqn:E; simpl; [|discriminate].
    destruct v; simpl; try discriminate.
    intros H. apply String.eqb_eq in H. subst. now exists props.
  - intros (props & -> & E).
    unfold isWebflowApiError, js_in, js_get. simpl. now rewrite E.
Qed.

Lemma not_found_test_false (error : value) :
  ~ carries_not_found_code error ->
  isWebflowApiError error && strict_eq_str (js_get "code" error) "NOT_FOUND" = false.
Proof.
  intros H. apply not_true_is_false. intros T. now apply H, not_found_test.
Qed.

(** An [Error] made by [new Error] has no [code]. *)
Lemma new_Error_has_no_code (message : string) :
  ~ carries_not_found_code (new_Error message).
Proof.
  intros (props & E & H). injection E as <-. discriminate H.
Qed.

(** A record that is found is rendered by [formattedSite]. *)
Lemma get_site_found (host : Host) (webflow : WebflowClient)
    (args : value) (siteId : string) (site : Site) :
  js_get "siteId" args = VStr siteId -> siteId <> "" ->
  sites_get webflow siteId = Returned (JsSome site) ->
  get_site host webflow args =
    ([NewWebflowClient (accessToken host); SitesGet siteId],
     Returned {| content := [Text (formattedSite host site)] |}).
Proof.
  intros Hid Hne Hget.
  unfold get_site. rewrite (parse_getSite_valid args siteId Hid Hne).
  unfold await_sites_get. simpl. rewrite Hget. reflexivity.
Qed.

(** What [get_site] does once the arguments are valid and the remote call
    failed. *)
Lemma get_site_remote_failure (host : Host) (webflow : WebflowClient)
    (args : value) (siteId : string) (error : value) :
  js_get "siteId" args = VStr siteId -> siteId <> "" ->
  sites_get webflow siteId = Thrown error ->
  ~ carries_not_found_code error ->
  get_site host webflow args =
    ([NewWebflowClient (accessToken host); SitesGet siteId;
      ConsoleError [VStr "Error fetching site:"; error]],
     Thrown (new_Error "Failed to fetch site details")).
Proof.
  intros Hid Hne Hget Hcode.
  unfold get_site. rewrite (parse_getSite_valid args siteId Hid Hne).
  unfold await_sites_get. simpl. rewrite Hget. simpl.
  now rewrite (not_found_test_false error Hcode).
Qed.

Lemma get_sites_remote_failure (host : Host) (webflow : WebflowClient)
    (args : value) (error : value) :
  sites_list webflow = Thrown error ->
  get_sites host webflow args =
    ([NewWebflowClient (accessToken host); SitesList;
      ConsoleError [VStr "Error fetching sites:"; error]],
     Thrown (new_Error "Failed to fetch sites list")).
Proof.
  intros H. unfold get_sites, await_sites_list. simpl. now rewrite H.
Qed.

(** [call_tool] finds the two handlers under their names. *)
Lemma call_tool_get_site (host : Host) (webflow : WebflowClient) (args : ToolArguments) :
  call_tool host webflow "get_site" args =
    try_catch (r <- get_site host webflow (args_value args) ;; ret (Result r))
      (fun error =>
         console_error [VStr "Error executing tool get_site:"; error] ;;;
         throw error).
Proof. reflexivity. Qed.

Lemma call_tool_get_sites (host : Host) (webflow : WebflowClient) (args : ToolArguments) :
  call_tool host webflow "get_sites" args =
    try_catch (r <- get_sites host webflow (args_value args) ;; ret (Result r))
      (fun error =>
         console_error [VStr "Error executing tool get_sites:"; error] ;;;
         throw error).
Proof. reflexivity. Qed.

(** An error a handler throws is the error [call_tool] throws, after one
    more log line. *)
Lemma call_tool_rethrows (name : string) (m : M ToolResult)
    (t : list event) (error : value) :
  m = (t, Thrown error) ->
  try_catch (r <- m ;; ret (Result r))
    (fun e => console_error [VStr ("Error executing tool " ++ name ++ ":"); e] ;;; throw e)
  = ((t ++ [ConsoleError [VStr ("Error executing tool " ++ name ++ ":"); error]])%list,
     Thrown error).
Proof. intros ->. reflexivity. Qed.

(** A name that neither [toolHandlers] nor [Object.prototype] defines is
    reported as unknown, and nothing else happens. *)
Lemma call_tool_unknown_name (host : Host) (webflow : WebflowClient)
    (name : string) (args : ToolArguments) :
  toolHandlers_get name = Undefined ->
  call_tool host webflow name args =
    ([ConsoleError [VStr ("Error executing tool " ++ name ++ ":");
                    new_Error ("Unknown tool: " ++ name)]],
     Thrown (new_Error ("Unknown tool: " ++ name))).
Proof.
  intros H. unfold call_tool. now rewrite H.
Qed.

(** ** get_site: the remote call fails or finds nothing *)

(** C1. When the arguments carry a non-empty [siteId] and the remote fetch
    throws an error carrying the not-found code, [get_site] returns (it
    does not throw) a result with one text item, and that text contains
    the requested identifier. *)
Theorem get_site_not_found_is_success (host : Host) (webflow : WebflowClient)
    (args : value) (siteId : string) (error : value) :
  js_get "siteId" args = VStr siteId -> siteId <> "" ->
  sites_get webflow siteId = Thrown error ->
  carries_not_found_code error ->
  exists text,
    get_site host webflow args =
      ([NewWebflowClient (accessToken host); SitesGet siteId],
       Returned {| content := [Text text] |})
    /\ Str.contains siteId text.
Proof.
  intros Hid Hne Hget Hcode.
  exists ("Site with ID " ++ siteId ++ " not found."). split.
  - unfold get_site. rewrite (parse_getSite_valid args siteId Hid Hne).
    unfold await_sites_get. simpl. rewrite Hget. simpl.
    apply not_found_test in Hcode. now rewrite Hcode.
  - apply contains_middle.
Qed.

Lemma get_site_not_found_is_success_witness :
  exists text,
    get_site sample_host (failing not_found_error) (args_value demo_args) =
      ([NewWebflowClient "token"; SitesGet "abc123"],
       Returned {| content := [Text text] |})
    /\ Str.contains "abc123" text.
Proof.
  apply (get_site_not_found_is_success sample_host (failing not_found_error)
           (args_value demo_args) "abc123" not_found_error).
  - reflexivity.
  - discriminate.
  - reflexivity.
  - exists [("status", VNum 404); ("message", VStr "Site not found");
            ("code", VStr "NOT_FOUND")].
    split; reflexivity.
Defined.

(** C9. When the remote fetch returns without throwing but yields no site
    record, [get_site] throws the generic error: the [Site not found] error
    it throws inside its [try] has no code, so the not-found test of the
    [catch] block does not recognise it. *)
Theorem get_site_absent_record_is_failure (host : Host) (webflow : WebflowClient)
    (args : value) (siteId : string) (site : nullable Site) :
  js_get "siteId" args = VStr siteId -> siteId <> "" ->
  sites_get webflow siteId = Returned site ->
  absent site ->
  get_site host webflow args =
    ([NewWebflowClient (accessToken host); SitesGet siteId;
      ConsoleError [VStr "Error fetching site:"; new_Error "Site not found"]],
     Thrown (new_Error "Failed to fetch site details"))
  /\ isWebflowApiError (new_Error "Site not found") = false
  /\ ~ carries_not_found_code (new_Error "Site not found").
Proof.
  intros Hid Hne Hget Habs. split; [|split].
  - unfold get_site. rewrite (parse_getSite_valid args siteId Hid Hne).
    unfold await_sites_get. simpl. rewrite Hget.
    destruct Habs as [-> | ->]; reflexivity.
  - reflexivity.
  - apply new_Error_has_no_code.
Qed.

Lemma get_site_absent_record_is_failure_witness :
  get_site sample_host (answering (Returned JsNull) (Thrown VNull)) (args_value demo_args) =
    ([NewWebflowClient "token"; SitesGet "abc123";
      ConsoleError [VStr "Error fetching site:"; new_Error "Site not found"]],
     Thrown (new_Error "Failed to fetch site details"))
  /\ isWebflowApiError (new_Error "Site not found") = false
  /\ ~ carries_not_found_code (new_Error "Site not found").
Proof.
  apply (get_site_absent_record_is_failure sample_host
           (answering (Returned JsNull) (Thrown VNull))
           (args_value demo_args) "abc123" JsNull).
  - reflexivity.
  - discriminate.
  - reflexivity.
  - right. reflexivity.
Defined.

(** C3. When the remote call of a tool fails, and for [get_site] not with
    the not-found condition, the handler throws an error with the fixed
    message of that tool, [Failed to fetch site details] or
    [Failed to fetch sites list], whatever the caught error was; the caught
    error goes to the console only, and [call_tool] throws the handler's
    error unchanged. *)
Theorem remote_failure_raises_generic_error (host : Host) (webflow : WebflowClient)
    (tool : string) (args : ToolArguments) (error : value) :
  remote_failure webflow tool args error ->
  exists (handler : ToolHandler) (t : list event) (label : string),
    assoc tool toolHandlers = Some handler
    /\ handler host webflow (args_value args) =
         ((t ++ [ConsoleError [VStr label; error]])%list,
          Thrown (new_Error (generic_message tool)))
    /\ call_tool host webflow tool args =
         ((t ++ [ConsoleError [VStr label; error];
                 ConsoleError [VStr ("Error executing tool " ++ tool ++ ":");
                               new_Error (generic_message tool)]])%list,
          Thrown (new_Error (generic_message tool))).
Proof.
  intros [a siteId e Hid Hne Hget Hcode | a e Hlist].
  - exists get_site, [NewWebflowClient (accessToken host); SitesGet siteId],
      "Error fetching site:".
    pose proof (get_site_remote_failure host webflow (args_value a) siteId e
                  Hid Hne Hget Hcode) as H.
    split; [reflexivity|]. split; [exact H|].
    rewrite call_tool_get_site, H. reflexivity.
  - exists get_sites, [NewWebflowClient (accessToken host); SitesList],
      "Error fetching sites:".
    pose proof (get_sites_remote_failure host webflow (args_value a) e Hlist) as H.
    split; [reflexivity|]. split; [exact H|].
    rewrite call_tool_get_sites, H. reflexivity.
Qed.

Lemma remote_failure_raises_generic_error_witness :
  exists (handler : ToolHandler) (t : list event) (label : string),
    assoc "get_site" toolHandlers = Some handler
    /\ handler sample_host (failing network_error) (args_value demo_args) =
         ((t ++ [ConsoleError [VStr label; network_error]])%list,
          Thrown (new_Error "Failed to fetch site details"))
    /\ call_tool sample_host (failing network_error) "get_site" demo_args =
         ((t ++ [ConsoleError [VStr label; network_error];
                 ConsoleError [VStr "Error executing tool get_site:";
                               new_Error "Failed to fetch site details"]])%list,
          Thrown (new_Error "Failed to fetch site details")).
Proof.
  apply (remote_failure_raises_generic_error sample_host (failing network_error)
           "get_site" demo_args network_error).
  apply (get_site_fails (failing network_error) demo_args "abc123" network_error).
  - reflexivity.
  - discriminate.
  - reflexivity.
  - intros (props & E & H). injection E as <-. discriminate H.
Defined.

(** The same at [get_sites], where even an error with the not-found code
    is a failure. *)
Example get_sites_not_found_error :
  call_tool sample_host (failing not_found_error) "get_sites" None =
    ([NewWebflowClient "token"; SitesList;
      ConsoleError [VStr "Error fetching sites:"; not_found_error];
      ConsoleError [VStr "Error executing tool get_sites:";
                    new_Error "Failed to fetch sites list"]],
     Thrown (new_Error "Failed to fetch sites list")).
Proof. reflexivity. Qed.

(** ** get_site: validation *)

Lemma getSite_rejects (args : value) :
  js_get "siteId" args = VUndefined \/ js_get "siteId" args = VStr "" ->
  exists issues, issues <> [] /\ getSite [] args = inl issues.
Proof.
  intros H.
  destruct args as [| | | | |items|props];
    try (eexists; split; [|reflexivity]; discriminate).
  unfold getSite, Zod.object1.
  destruct H as [-> | ->]; (eexists; split; [|reflexivity]; discriminate).
Qed.

(** C4. When the arguments have no [siteId] or an empty one, [get_site]
    throws the validator's error at once: it performs no effect at all, and
    [call_tool] throws that error to its caller having called the remote
    API not once. *)
Theorem get_site_rejects_missing_or_empty_siteId (host : Host)
    (webflow : WebflowClient) (args : ToolArguments) :
  js_get "siteId" (args_value args) = VUndefined
  \/ js_get "siteId" (args_value args) = VStr "" ->
  exists issues,
    issues <> []
    /\ get_site host webflow (args_value args) = ([], Thrown (Zod.ZodError issues))
    /\ result (call_tool host webflow "get_site" args) = Thrown (Zod.ZodError issues)
    /\ no_remote_call (events (call_tool host webflow "get_site" args)).
Proof.
  intros H.
  destruct (getSite_rejects (args_value args) H) as (issues & Hne & Hiss).
  exists issues.
  pose proof (get_site_invalid host webflow (args_value args) issues Hiss) as Hg.
  split; [exact Hne|]. split; [exact Hg|].
  rewrite call_tool_get_site, Hg. split; reflexivity.
Qed.

Lemma get_site_rejects_missing_or_empty_siteId_witness :
  exists issues,
    issues <> []
    /\ get_site sample_host (answering (Returned (JsSome demo_site)) (Thrown VNull))
         (args_value (Some [("siteId", VStr "")])) = ([], Thrown (Zod.ZodError issues))
    /\ result (call_tool sample_host (answering (Returned (JsSome demo_site)) (Thrown VNull))
                 "get_site" (Some [("siteId", VStr "")])) = Thrown (Zod.ZodError issues)
    /\ no_remote_call
         (events (call_tool sample_host (answering (Returned (JsSome demo_site)) (Thrown VNull))
                    "get_site" (Some [("siteId", VStr "")]))).
Proof.
  apply (get_site_rejects_missing_or_empty_siteId sample_host
           (answering (Returned (JsSome demo_site)) (Thrown VNull))
           (Some [("siteId", VStr "")])).
  right. reflexivity.
Defined.

(** The three ways the arguments of a request can fail, with the message
    each carries. *)
Example get_site_without_arguments :
  getSite [] (args_value None) = inl [Zod.invalid_type [] "object" "undefined"]
  /\ Zod.issue_message (Zod.invalid_type [] "object" "undefined") = "Required".
Proof. split; reflexivity. Qed.

Example get_site_without_siteId :
  getSite [] (args_value (Some [("id", VStr "abc123")])) =
    inl [Zod.invalid_type ["siteId"] "string" "undefined"]
  /\ Zod.issue_message (Zod.invalid_type ["siteId"] "string" "undefined") = "Required".
Proof. split; reflexivity. Qed.

Example get_site_with_empty_siteId :
  getSite [] (args_value (Some [("siteId", VStr "")])) =
    inl [Zod.too_small ["siteId"] 1 "Site ID is required"]
  /\ Zod.issue_message (Zod.too_small ["siteId"] 1 "Site ID is required") =
       "Site ID is required".
Proof. split; reflexivity. Qed.

(** C10. When the schema rejects the arguments, the error [parse] throws
    is the error [get_site] throws and the error [call_tool] throws: it
    holds the validator's issues with their messages, and it is not the
    generic error of the [catch] block, which is never entered. *)
Theorem validation_error_reaches_caller_unchanged (host : Host)
    (webflow : WebflowClient) (args : ToolArguments) (issues : list Zod.ZodIssue) :
  getSite [] (args_value args) = inl issues ->
  Zod.parse getSite (args_value args) = ([], Thrown (Zod.ZodError issues))
  /\ get_site host webflow (args_value args) = ([], Thrown (Zod.ZodError issues))
  /\ call_tool host webflow "get_site" args =
       ([ConsoleError [VStr "Error executing tool get_site:"; Zod.ZodError issues]],
        Thrown (Zod.ZodError issues))
  /\ js_get "issues" (Zod.ZodError issues) = VArr (map Zod.issue_value issues)
  /\ map (js_get "message") (map Zod.issue_value issues) =
       map (fun i => VStr (Zod.issue_message i)) issues
  /\ Zod.ZodError issues <> new_Error "Failed to fetch site details".
Proof.
  intros H.
  pose proof (get_site_invalid host webflow (args_value args) issues H) as Hg.
  split; [unfold Zod.parse; now rewrite H|].
  split; [exact Hg|].
  split; [rewrite call_tool_get_site, Hg; reflexivity|].
  split; [reflexivity|].
  split; [|discriminate].
  rewrite map_map. apply map_ext. intros [path e r | path m msg]; reflexivity.
Qed.

Lemma validation_error_reaches_caller_unchanged_witness :
  Zod.parse getSite (args_value (Some [("siteId", VNum 7)])) =
    ([], Thrown (Zod.ZodError [Zod.invalid_type ["siteId"] "string" "number"]))
  /\ get_site sample_host (failing network_error) (args_value (Some [("siteId", VNum 7)])) =
       ([], Thrown (Zod.ZodError [Zod.invalid_type ["siteId"] "string" "number"]))
  /\ call_tool sample_host (failing network_error) "get_site" (Some [("siteId", VNum 7)]) =
       ([ConsoleError [VStr "Error executing tool get_site:";
                       Zod.ZodError [Zod.invalid_type ["siteId"] "string" "number"]]],
        Thrown (Zod.ZodError [Zod.invalid_type ["siteId"] "string" "number"]))
  /\ js_get "issues" (Zod.ZodError [Zod.invalid_type ["siteId"] "string" "number"]) =
       VArr (map Zod.issue_value [Zod.invalid_type ["siteId"] "string" "number"])
  /\ map (js_get "message")
       (map Zod.issue_value [Zod.invalid_type ["siteId"] "string" "number"]) =
       map (fun i => VStr (Zod.issue_message i))
         [Zod.invalid_type ["siteId"] "string" "number"]
  /\ Zod.ZodError [Zod.invalid_type ["siteId"] "string" "number"] <>
       new_Error "Failed to fetch site details".
Proof.
  apply (validation_error_reaches_caller_unchanged sample_host (failing network_error)
           (Some [("siteId", VNum 7)]) [Zod.invalid_type ["siteId"] "string" "number"]).
  reflexivity.
Defined.

(** ** get_sites *)

(** C5. For a non-empty list of sites, [get_sites] returns one text item:
    the word [Found], the number of sites in decimal, and then one block
    for every site, in the order of the list, the blocks joined by line
    feeds.  The block of a site is a line feed and six lines: the display
    name after the bullet, the identifier, the workspace, the two dates and
    the preview URL, each under its label, with [N/A] for an absent date
    and for an absent or empty preview URL. *)
Theorem get_sites_lists_every_site (host : Host) (webflow : WebflowClient)
    (args : value) (l : list Site) :
  l <> [] ->
  sites_list webflow = Returned {| sites := SitesArray l |} ->
  exists count rest blocks,
    get_sites host webflow args =
      ([NewWebflowClient (accessToken host); SitesList],
       Returned {| content := [Text ("Found " ++ count ++ " sites:" ++ Str.nl ++ rest)] |})
    /\ count = Str.of_nat (List.length l)
    /\ Str.to_nat count = Some (List.length l)
    /\ rest = Str.join Str.nl blocks
    /\ Str.in_order blocks rest
    /\ Forall2
         (fun (site : Site) (block : string) =>
            block =
              Str.nl ++
              "• Site: "
              ++ (match displayName site with
                  | JsSome s => s
                  | JsUndefined => "undefined"
                  | JsNull => "null"
                  end) ++ Str.nl ++
              "  - ID: " ++ id site ++ Str.nl ++
              "  - Workspace: "
              ++ (match workspaceId site with
                  | JsSome s => s
                  | JsUndefined => "undefined"
                  | JsNull => "null"
                  end) ++ Str.nl ++
              "  - Created: "
              ++ (match createdOn site with
                  | JsSome d => toLocaleString host d
                  | JsUndefined | JsNull => "N/A"
                  end) ++ Str.nl ++
              "  - Last Published: "
              ++ (match lastPublished site with
                  | JsSome d => toLocaleString host d
                  | JsUndefined | JsNull => "N/A"
                  end) ++ Str.nl ++
              "  - Preview URL: "
              ++ (match previewUrl site with
                  | JsSome (String a s) => String a s
                  | JsSome EmptyString | JsUndefined | JsNull => "N/A"
                  end) ++ Str.nl)
         l blocks.
Proof.
  intros Hne Hlist.
  exists (Str.of_nat (List.length l)), (formattedSites host l),
    (map (formattedSites_entry host) l).
  split; [|split; [reflexivity|split; [|split; [reflexivity|split]]]].
  - unfold get_sites, await_sites_list. simpl. rewrite Hlist.
    destruct l as [|site rest]; [contradiction | reflexivity].
  - apply of_nat_to_nat.
  - apply in_order_join.
  - clear Hne Hlist. induction l as [|site l IH]; simpl; constructor.
    + reflexivity.
    + exact IH.
Qed.

Lemma get_sites_lists_every_site_witness :
  exists count rest blocks,
    get_sites sample_host
        (answering (Returned JsNull) (Returned {| sites := SitesArray [demo_site; other_site] |}))
        VUndefined =
      ([NewWebflowClient "token"; SitesList],
       Returned {| content := [Text ("Found " ++ count ++ " sites:" ++ Str.nl ++ rest)] |})
    /\ count = "2"
    /\ Str.to_nat count = Some 2
    /\ rest = Str.join Str.nl blocks
    /\ Str.in_order blocks rest
    /\ Forall2
         (fun (site : Site) (block : string) =>
            block =
              Str.nl ++
              "• Site: "
              ++ (match displayName site with
                  | JsSome s => s
                  | JsUndefined => "undefined"
                  | JsNull => "null"
                  end) ++ Str.nl ++
              "  - ID: " ++ id site ++ Str.nl ++
              "  - Workspace: "
              ++ (match workspaceId site with
                  | JsSome s => s
                  | JsUndefined => "undefined"
                  | JsNull => "null"
                  end) ++ Str.nl ++
              "  - Created: "
              ++ (match createdOn site with
                  | JsSome d => toLocaleString sample_host d
                  | JsUndefined | JsNull => "N/A"
                  end) ++ Str.nl ++
              "  - Last Published: "
              ++ (match lastPublished site with
                  | JsSome d => toLocaleString sample_host d
                  | JsUndefined | JsNull => "N/A"
                  end) ++ Str.nl ++
              "  - Preview URL: "
              ++ (match previewUrl site with
                  | JsSome (String a s) => String a s
                  | JsSome EmptyString | JsUndefined | JsNull => "N/A"
                  end) ++ Str.nl)
         [demo_site; other_site] blocks.
Proof.
  apply (get_sites_lists_every_site sample_host
           (answering (Returned JsNull) (Returned {| sites := SitesArray [demo_site; other_site] |}))
           VUndefined [demo_site; other_site]).
  - discriminate.
  - reflexivity.
Defined.

(** The text of the example, written out. *)
Example get_sites_two_sites :
  get_sites sample_host
      (answering (Returned JsNull) (Returned {| sites := SitesArray [demo_site; other_site] |}))
      VUndefined =
    ([NewWebflowClient "token"; SitesList],
     Returned {| content := [Text (
       "Found 2 sites:" ++ Str.nl ++
       Str.nl ++
       "• Site: Demo" ++ Str.nl ++
       "  - ID: abc123" ++ Str.nl ++
       "  - Workspace: w1" ++ Str.nl ++
       "  - Created: N/A" ++ Str.nl ++
       "  - Last Published: N/A" ++ Str.nl ++
       "  - Preview URL: N/A" ++ Str.nl ++
       Str.nl ++
       Str.nl ++
       "• Site: Shop" ++ Str.nl ++
       "  - ID: def456" ++ Str.nl ++
       "  - Workspace: w1" ++ Str.nl ++
       "  - Created: 1/1/2024, 12:00:00 AM" ++ Str.nl ++
       "  - Last Published: N/A" ++ Str.nl ++
       "  - Preview URL: https://shop.example/preview.png" ++ Str.nl)] |}).
Proof. reflexivity. Qed.

(** C6. When the [sites] of the response is an empty list, or is not a
    list, [get_sites] returns one text item with the fixed message. *)
Theorem get_sites_reports_no_sites (host : Host) (webflow : WebflowClient)
    (args : value) (response : SitesResponse) :
  sites_list webflow = Returned response ->
  sites response = SitesArray [] \/ (forall l, sites response <> SitesArray l) ->
  get_sites host webflow args =
    ([NewWebflowClient (accessToken host); SitesList],
     Returned {| content := [Text "No sites found for this account."] |}).
Proof.
  intros Hlist H. unfold get_sites, await_sites_list. simpl. rewrite Hlist.
  destruct H as [-> | H]; [reflexivity|].
  destruct (sites response) as [l | v Hv]; [now destruct (H l) | reflexivity].
Qed.

Lemma get_sites_reports_no_sites_witness :
  get_sites sample_host
      (answering (Returned JsNull) (Returned {| sites := SitesArray [] |})) VUndefined =
    ([NewWebflowClient "token"; SitesList],
     Returned {| content := [Text "No sites found for this account."] |}).
Proof.
  apply (get_sites_reports_no_sites sample_host
           (answering (Returned JsNull) (Returned {| sites := SitesArray [] |}))
           VUndefined {| sites := SitesArray [] |}).
  - reflexivity.
  - left. reflexivity.
Defined.

(** A response without [sites], and one whose [sites] is a string. *)
Example get_sites_without_list :
  get_sites sample_host
      (answering (Returned JsNull)
         (Returned {| sites := NotAnArray VUndefined eq_refl |})) VUndefined =
    ([NewWebflowClient "token"; SitesList],
     Returned {| content := [Text "No sites found for this account."] |})
  /\ get_sites sample_host
      (answering (Returned JsNull)
         (Returned {| sites := NotAnArray (VStr "none") eq_refl |})) VUndefined =
    ([NewWebflowClient "token"; SitesList],
     Returned {| content := [Text "No sites found for this account."] |}).
Proof. split; reflexivity. Qed.

(** ** The request handlers *)

(** C7, at the name [toString].  The name is no property of the handler
    table itself, yet [toolHandlers[name]] finds the function every object
    inherits; [call_tool] calls it and returns what it returns, a string,
    where an [Unknown tool] error was due. *)
Theorem call_tool_inherited_name (host : Host) (webflow : WebflowClient) :
  assoc "toString" toolHandlers = None
  /\ toolHandlers_get "toString" = Inherited P_toString
  /\ call_tool host webflow "toString" None =
       ([], Returned (NotAResult (VStr "[object Undefined]")))
  /\ result (call_tool host webflow "toString" None) <>
       Thrown (new_Error "Unknown tool: toString").
Proof.
  split; [reflexivity|]. split; [reflexivity|]. split; [reflexivity|].
  discriminate.
Qed.

(** No inherited name is reported as unknown: the call returns what the
    inherited function returns, or fails with a [TypeError]. *)
Lemma call_tool_inherited_names (host : Host) (webflow : WebflowClient)
    (name : string) (m : ObjectPrototypeMember) (args : ToolArguments) :
  toolHandlers_get name = Inherited m ->
  (exists v, result (call_tool host webflow name args) = Returned (NotAResult v))
  \/ result (call_tool host webflow name args) = Thrown TypeError.
Proof.
  intros H. unfold call_tool. rewrite H.
  destruct m; simpl; try (right; reflexivity); try (left; eexists; reflexivity).
  destruct args; [right | left; eexists]; reflexivity.
Qed.

(** Whatever the name, a call that reaches no handler calls the remote API
    not once. *)
Lemma call_tool_without_handler_is_local (host : Host) (webflow : WebflowClient)
    (name : string) (args : ToolArguments) :
  assoc name toolHandlers = None ->
  no_remote_call (events (call_tool host webflow name args)).
Proof.
  intros H. unfold call_tool, toolHandlers_get. rewrite H.
  destruct (assoc name Object_prototype) as [m|]; [|reflexivity].
  destruct m; try reflexivity. destruct args; reflexivity.
Qed.

Lemma serve_app (host : Host) (a b : list (WebflowClient * Request)) :
  snd (serve host (a ++ b)%list) = (snd (serve host a) ++ snd (serve host b))%list.
Proof.
  induction a as [|[webflow request] a IH]; simpl; [reflexivity|].
  destruct (handle host webflow request) as [t r].
  destruct (serve host (a ++ b)%list) as [t1 r1].
  destruct (serve host a) as [t2 r2].
  simpl in *. now rewrite IH.
Qed.

Lemma serve_length (host : Host) (a : list (WebflowClient * Request)) :
  List.length (snd (serve host a)) = List.length a.
Proof.
  induction a as [|[webflow request] a IH]; simpl; [reflexivity|].
  destruct (handle host webflow request) as [t r].
  destruct (serve host a) as [t2 r2]. simpl in *. now rewrite IH.
Qed.

(** C8. [list_tools] returns the two descriptors [get_site] and
    [get_sites], in that order, and it does so after any sequence of
    earlier requests, whatever the remote API answered to them. *)
Theorem list_tools_is_static (host : Host)
    (history : list (WebflowClient * Request)) (webflow : WebflowClient) :
  result list_tools = Returned TOOL_DEFINITIONS
  /\ map name TOOL_DEFINITIONS = ["get_site"; "get_sites"]
  /\ nth_error (snd (serve host (history ++ [(webflow, ListTools)])%list))
       (List.length history) = Some (Returned (Tools TOOL_DEFINITIONS)).
Proof.
  split; [reflexivity|]. split; [reflexivity|].
  rewrite serve_app, nth_error_app2; rewrite serve_length; [|lia].
  now rewrite Nat.sub_diag.
Qed.

(** ** Formatting *)

(** C2, as amended.  The text of [get_site] lists identifier, display
    name, short name, workspace id, creation date, last-published date and
    preview URL, in that order and each under its label.  An entry of the
    text of [get_sites] lists display name, identifier, workspace id,
    creation date, last-published date and preview URL, in that order, and
    no short name.  In both, an absent date and an absent preview URL are
    rendered as [N/A]. *)
Theorem site_renderings_list_fields_in_order (host : Host) (site : Site) :
  Str.in_order (detail_fields host site) (formattedSite host site)
  /\ Str.in_order (rendered_fields host site) (formattedSite host site)
  /\ Str.in_order (entry_fields host site) (formattedSites_entry host site)
  /\ (forall shortName' : nullable string,
        formattedSites_entry host (with_shortName shortName' site) =
        formattedSites_entry host site)
  /\ formatDate host JsUndefined = "N/A"
  /\ formatDate host JsNull = "N/A"
  /\ or_else JsUndefined "N/A" = "N/A"
  /\ or_else JsNull "N/A" = "N/A".
Proof.
  split; [|split; [|split; [|split]]].
  - unfold detail_fields, formattedSite.
    next_field ("• Site Details:" ++ Str.nl ++ "            ").
    next_field (Str.nl ++ "            ").
    next_field (Str.nl ++ "            ").
    next_field (Str.nl ++ "          " ++ Str.nl
                ++ "          - Workspace Information:" ++ Str.nl ++ "            ").
    next_field (Str.nl ++ "          " ++ Str.nl
                ++ "          - Dates:" ++ Str.nl ++ "            ").
    next_field (Str.nl ++ "            ").
    exists (Str.nl ++ "          " ++ Str.nl
            ++ "          - URLs:" ++ Str.nl ++ "            "), "".
    split; [|exact I].
    rewrite append_nil_r. reflexivity.
  - unfold rendered_fields, formattedSite.
    next_field ("• Site Details:" ++ Str.nl ++ "            ID: ").
    next_field (Str.nl ++ "            Display Name: ").
    next_field (Str.nl ++ "            Short Name: ").
    next_field (Str.nl ++ "          " ++ Str.nl
                ++ "          - Workspace Information:" ++ Str.nl
                ++ "            Workspace ID: ").
    next_field (Str.nl ++ "          " ++ Str.nl
                ++ "          - Dates:" ++ Str.nl ++ "            Created On: ").
    next_field (Str.nl ++ "            Last Published: ").
    exists (Str.nl ++ "          " ++ Str.nl
            ++ "          - URLs:" ++ Str.nl ++ "            Preview URL: "), "".
    split; [|exact I].
    rewrite append_nil_r. reflexivity.
  - unfold entry_fields, formattedSites_entry.
    next_field (Str.nl ++ "• ").
    next_field (Str.nl ++ "  - ").
    next_field (Str.nl ++ "  - ").
    next_field (Str.nl ++ "  - ").
    next_field (Str.nl ++ "  - ").
    next_field (Str.nl ++ "  - ").
    exact I.
  - reflexivity.
  - repeat split.
Qed.

(** C2, as stated, fails at the record of the specification's own example:
    its entry in the text of [get_sites] does not list the fields in the
    order of [get_site]; it has no short name at all, and the display name
    does not come after the identifier. *)
Lemma get_sites_entry_breaks_claimed_order :
  ~ Str.in_order (rendered_fields sample_host demo_site)
      (formattedSites_entry sample_host demo_site)
  /\ ~ Str.contains "demo" (formattedSites_entry sample_host demo_site)
  /\ ~ Str.in_order ["abc123"; "Demo"] (formattedSites_entry sample_host demo_site).
Proof.
  split; [|split].
  - intros H. apply in_orderb_complete in H. vm_compute in H. discriminate H.
  - intros H. apply contains_in_order, in_orderb_complete in H.
    vm_compute in H. discriminate H.
  - intros H. apply in_orderb_complete in H. vm_compute in H. discriminate H.
Qed.

(** The example of the specification. *)
Example get_site_demo :
  exists text,
    call_tool sample_host (answering (Returned (JsSome demo_site)) (Thrown VNull))
      "get_site" demo_args =
      ([NewWebflowClient "token"; SitesGet "abc123"],
       Returned (Result {| content := [Text text] |}))
    /\ Str.in_orderb ["ID: abc123"; "Display Name: Demo"; "Created On: N/A";
                      "Preview URL: N/A"] text = true.
Proof. eexists. split; reflexivity. Qed.

(** * Further properties of the handlers *)

Lemma assoc_not_in {A : Type} (key : string) (l : list (string * A)) :
  ~ In key (map fst l) -> assoc key l = None.
Proof.
  induction l as [|[k a] l IH]; simpl; [reflexivity|].
  intros H. destruct (String.eqb_spec key k) as [->|_].
  - exfalso. apply H. now left.
  - apply IH. intros Hin. apply H. now right.
Qed.

Lemma assoc_in {A : Type} (key : string) (l : list (string * A)) (a : A) :
  assoc key l = Some a -> In key (map fst l).
Proof.
  induction l as [|[k b] l IH]; simpl; [discriminate|].
  destruct (String.eqb_spec key k) as [->|_]; [now left|].
  intros H. right. exact (IH H).
Qed.

(** X1. With a non-empty string [siteId], whatever the remote API answers,
    [get_site] constructs one client with the token of the host, fetches
    once, the site of that identifier, and does nothing after that but
    write to the console. *)
Theorem get_site_fetches_once (host : Host) (webflow : WebflowClient)
    (args : value) (siteId : string) :
  js_get "siteId" args = VStr siteId -> siteId <> "" ->
  exists console,
    events (get_site host webflow args) =
      NewWebflowClient (accessToken host) :: SitesGet siteId :: console
    /\ forallb is_console_error console = true.
Proof.
  intros Hid Hne.
  unfold get_site. rewrite (parse_getSite_valid args siteId Hid Hne).
  unfold await_sites_get. simpl.
  destruct (sites_get webflow siteId) as [[| |site]|e]; simpl;
    try (eexists; split; reflexivity).
  destruct (isWebflowApiError e && strict_eq_str (js_get "code" e) "NOT_FOUND");
    eexists; split; reflexivity.
Qed.

Lemma get_site_fetches_once_witness :
  exists console,
    events (get_site sample_host (failing network_error) (args_value demo_args)) =
      NewWebflowClient "token" :: SitesGet "abc123" :: console
    /\ forallb is_console_error console = true.
Proof.
  apply (get_site_fetches_once sample_host (failing network_error)
           (args_value demo_args) "abc123").
  - reflexivity.
  - discriminate.
Defined.

(** X2. Whatever the arguments and whatever the remote API does, [get_site]
    ends in one of three ways: it throws the validator's error having done
    nothing, it returns a result of exactly one text item, or it throws the
    error [Failed to fetch site details].  No other error leaves it. *)
Theorem get_site_outcomes (host : Host) (webflow : WebflowClient) (args : value) :
  (exists issues,
      getSite [] args = inl issues
      /\ get_site host webflow args = ([], Thrown (Zod.ZodError issues)))
  \/ (exists text,
        result (get_site host webflow args) = Returned {| content := [Text text] |})
  \/ result (get_site host webflow args) =
       Thrown (new_Error "Failed to fetch site details").
Proof.
  destruct (getSite [] args) as [issues|siteId] eqn:E.
  - left. exists issues. split; [reflexivity|].
    now apply get_site_invalid.
  - right. unfold get_site, Zod.parse. rewrite E.
    unfold await_sites_get. simpl.
    destruct (sites_get webflow siteId) as [[| |site]|e]; simpl;
      try (right; reflexivity); try (left; eexists; reflexivity).
    destruct (isWebflowApiError e && strict_eq_str (js_get "code" e) "NOT_FOUND");
      [left; eexists; reflexivity | right; reflexivity].
Qed.

(** X3. Whatever its arguments and whatever the remote API does,
    [get_sites] constructs one client, lists once, and then returns the
    fixed no-sites text, or a text that starts with [Found], or throws the
    error [Failed to fetch sites list] after one line on the console.  It
    never validates its arguments. *)
Theorem get_sites_outcomes (host : Host) (webflow : WebflowClient) (args : value) :
  exists console,
    events (get_sites host webflow args) =
      NewWebflowClient (accessToken host) :: SitesList :: console
    /\ ((console = []
         /\ result (get_sites host webflow args) =
              Returned {| content := [Text "No sites found for this account."] |})
        \/ (console = []
            /\ exists rest,
                 result (get_sites host webflow args) =
                   Returned {| content := [Text ("Found " ++ rest)] |})
        \/ (exists error,
              console = [ConsoleError [VStr "Error fetching sites:"; error]]
              /\ sites_list webflow = Thrown error
              /\ result (get_sites host webflow args) =
                   Thrown (new_Error "Failed to fetch sites list"))).
Proof.
  unfold get_sites, await_sites_list. simpl.
  destruct (sites_list webflow) as [[[[|site l]|v Hv]]|e]; simpl.
  - exists []. split; [reflexivity|]. left. now split.
  - exists []. split; [reflexivity|]. right; left. split; [reflexivity|].
    eexists. reflexivity.
  - exists []. split; [reflexivity|]. left. now split.
  - eexists. split; [reflexivity|]. right; right. exists e. now repeat split.
Qed.

(** X4. For a name of the handler table, [call_tool] is the handler: a
    result is passed on with no further effect, and an error is thrown on
    as it is after one line on the console that names the tool. *)
Theorem call_tool_runs_registered_handler (host : Host) (webflow : WebflowClient)
    (tool : string) (args : ToolArguments) (handler : ToolHandler) :
  assoc tool toolHandlers = Some handler ->
  call_tool host webflow tool args =
    match handler host webflow (args_value args) with
    | (t, Returned r) => (t, Returned (Result r))
    | (t, Thrown e) =>
        ((t ++ [ConsoleError [VStr ("Error executing tool " ++ tool ++ ":"); e]])%list,
         Thrown e)
    end.
Proof.
  intros H. unfold call_tool, toolHandlers_get. rewrite H.
  destruct (handler host webflow (args_value args)) as [t [r|e]]; simpl.
  - now rewrite app_nil_r.
  - reflexivity.
Qed.

Lemma call_tool_runs_registered_handler_witness :
  call_tool sample_host (answering (Returned (JsSome demo_site)) (Thrown VNull))
      "get_site" demo_args =
    match get_site sample_host (answering (Returned (JsSome demo_site)) (Thrown VNull))
            (args_value demo_args) with
    | (t, Returned r) => (t, Returned (Result r))
    | (t, Thrown e) =>
        ((t ++ [ConsoleError [VStr ("Error executing tool " ++ "get_site" ++ ":"); e]])%list,
         Thrown e)
    end.
Proof.
  apply (call_tool_runs_registered_handler sample_host
           (answering (Returned (JsSome demo_site)) (Thrown VNull))
           "get_site" demo_args get_site).
  reflexivity.
Defined.

(** X5. A name that is neither a key of the handler table nor a name of
    [Object.prototype] makes [call_tool] throw [Unknown tool: ] followed by
    the name, after one line on the console and nothing else. *)
Theorem call_tool_reports_unknown_name (host : Host) (webflow : WebflowClient)
    (tool : string) (args : ToolArguments) :
  ~ In tool (map fst toolHandlers) ->
  ~ In tool (map fst Object_prototype) ->
  call_tool host webflow tool args =
    ([ConsoleError [VStr ("Error executing tool " ++ tool ++ ":");
                    new_Error ("Unknown tool: " ++ tool)]],
     Thrown (new_Error ("Unknown tool: " ++ tool))).
Proof.
  intros Hown Hproto. unfold call_tool, toolHandlers_get.
  rewrite (assoc_not_in tool toolHandlers Hown).
  rewrite (assoc_not_in tool Object_prototype Hproto).
  reflexivity.
Qed.

Lemma call_tool_reports_unknown_name_witness :
  call_tool sample_host (failing network_error) "delete_site" demo_args =
    ([ConsoleError [VStr ("Error executing tool " ++ "delete_site" ++ ":");
                    new_Error ("Unknown tool: " ++ "delete_site")]],
     Thrown (new_Error ("Unknown tool: " ++ "delete_site"))).
Proof.
  apply (call_tool_reports_unknown_name sample_host (failing network_error)
           "delete_site" demo_args).
  - simpl. intros [H | [H | []]]; discriminate H.
  - simpl. intuition discriminate.
Defined.

(** X6. For a name that is no key of the handler table, [call_tool]
    constructs no client and calls the remote API not once: all it does is
    write to the console. *)
Theorem call_tool_without_handler_only_logs (host : Host) (webflow : WebflowClient)
    (tool : string) (args : ToolArguments) :
  ~ In tool (map fst toolHandlers) ->
  forallb is_console_error (events (call_tool host webflow tool args)) = true.
Proof.
  intros Hown. unfold call_tool, toolHandlers_get.
  rewrite (assoc_not_in tool toolHandlers Hown).
  destruct (assoc tool Object_prototype) as [m|]; [|reflexivity].
  destruct m; try reflexivity. destruct args; reflexivity.
Qed.

Lemma call_tool_without_handler_only_logs_witness :
  forallb is_console_error
    (events (call_tool sample_host (failing network_error) "valueOf" demo_args)) = true.
Proof.
  apply (call_tool_without_handler_only_logs sample_host (failing network_error)
           "valueOf" demo_args).
  simpl. intros [H | [H | []]]; discriminate H.
Defined.



(** With [constructor] the caller gets its own arguments back as the
    outcome of the call, also when they have the shape of a tool result. *)
Example call_tool_constructor_echoes_arguments :
  call_tool sample_host (failing network_error) "constructor"
      (Some [("content",
              VArr [VObj [("type", VStr "text"); ("text", VStr "x")]])]) =
    ([], Returned (NotAResult
           (VObj [("content",
                   VArr [VObj [("type", VStr "text"); ("text", VStr "x")]])]))).
Proof. reflexivity. Qed.

(** X8. [isWebflowApiError] holds exactly of the objects that have a
    [code] property, whatever its value; it looks at no [message] and no
    [status], and it holds of no array, of no primitive value and of no
    error made by [new Error]. *)
Theorem isWebflowApiError_iff_has_code (error : value) :
  (isWebflowApiError error = true
   <-> exists props code, error = VObj props /\ assoc "code" props = Some code)
  /\ (forall message, isWebflowApiError (new_Error message) = false).
Proof.
  split; [split|reflexivity].
  - destruct error as [| | | | |items|props]; try discriminate.
    unfold isWebflowApiError, js_in. simpl.
    destruct (assoc "code" props) as [code|] eqn:E; [|discriminate].
    intros _. now exists props, code.
  - intros (props & code & -> & E).
    unfold isWebflowApiError, js_in. simpl. now rewrite E.
Qed.

(** X9. The schema of [get_site] accepts exactly the objects whose
    [siteId] is a non-empty string, and yields that string; the other
    properties of the object play no part. *)
Theorem getSite_accepts_iff (args : value) (siteId : string) :
  getSite [] args = inr siteId
  <-> (exists props, args = VObj props /\ assoc "siteId" props = Some (VStr siteId))
      /\ siteId <> "".
Proof.
  split.
  - destruct args as [| | | | |items|props]; try discriminate.
    unfold getSite, Zod.object1, js_get.
    destruct (assoc "siteId" props) as [v|] eqn:E; [|discriminate].
    destruct v as [| | | |s| |]; try discriminate.
    destruct s as [|ch s]; [discriminate|].
    intros [= <-]. split; [now exists props | discriminate].
  - intros [(props & -> & E) Hne].
    unfold getSite, Zod.object1, js_get. rewrite E.
    destruct siteId as [|ch s]; [contradiction | reflexivity].
Qed.

Lemma in_order_contains (items : list string) (x s : string) :
  Str.in_order items s -> In x items -> Str.contains x s.
Proof.
  revert s; induction items as [|y rest IH]; intros s; simpl; [intros _ []|].
  intros (pre & post & -> & H) [<- | Hin].
  - apply contains_middle.
  - destruct (IH post H Hin) as (p & q & ->).
    exists (pre ++ y ++ p), q. now rewrite !append_assoc.
Qed.

(** X10. A preview URL that is the empty string is rendered as [N/A], like
    an absent one, and any other preview URL is rendered as it is: the text
    of [get_site] ends with it, and an entry of [get_sites] ends with it and
    a line feed. *)
Theorem preview_url_rendering (host : Host) (site : Site) (url : string) :
  previewUrl site = JsSome url ->
  exists pre pre',
    formattedSite host site =
      pre ++ "Preview URL: " ++ (if String.eqb url "" then "N/A" else url)
    /\ formattedSites_entry host site =
         pre' ++ "Preview URL: " ++ (if String.eqb url "" then "N/A" else url) ++ Str.nl.
Proof.
  intros H.
  assert (E : or_else (previewUrl site) "N/A" = if String.eqb url "" then "N/A" else url)
    by (rewrite H; now destruct url).
  unfold formattedSite, formattedSites_entry. rewrite E.
  exists ("• Site Details:" ++ Str.nl ++
          "            ID: " ++ id site ++ Str.nl ++
          "            Display Name: " ++ interpolate (displayName site) ++ Str.nl ++
          "            Short Name: " ++ interpolate (shortName site) ++ Str.nl ++
          "          " ++ Str.nl ++
          "          - Workspace Information:" ++ Str.nl ++
          "            Workspace ID: " ++ interpolate (workspaceId site) ++ Str.nl ++
          "          " ++ Str.nl ++
          "          - Dates:" ++ Str.nl ++
          "            Created On: " ++ formatDate host (createdOn site) ++ Str.nl ++
          "            Last Published: " ++ formatDate host (lastPublished site) ++ Str.nl ++
          "          " ++ Str.nl ++
          "          - URLs:" ++ Str.nl ++
          "            ").
  exists (Str.nl ++
          "• Site: " ++ interpolate (displayName site) ++ Str.nl ++
          "  - ID: " ++ id site ++ Str.nl ++
          "  - Workspace: " ++ interpolate (workspaceId site) ++ Str.nl ++
          "  - Created: " ++ formatDate host (createdOn site) ++ Str.nl ++
          "  - Last Published: " ++ formatDate host (lastPublished site) ++ Str.nl ++
          "  - ").
  split; rewrite !append_assoc; reflexivity.
Qed.

Lemma preview_url_rendering_witness :
  exists pre pre',
    formattedSite sample_host (with_previewUrl (JsSome "") demo_site) =
      pre ++ "Preview URL: " ++ (if String.eqb "" "" then "N/A" else "")
    /\ formattedSites_entry sample_host (with_previewUrl (JsSome "") demo_site) =
         pre' ++ "Preview URL: " ++ (if String.eqb "" "" then "N/A" else "") ++ Str.nl.
Proof.
  apply (preview_url_rendering sample_host (with_previewUrl (JsSome "") demo_site) "").
  reflexivity.
Defined.

(** X11. Only the dates and the preview URL have a placeholder.  A record
    without display name is rendered with the word [undefined] where the
    name would be, in the text of [get_site] and in an entry of
    [get_sites]. *)
Theorem missing_display_name_rendering (host : Host) (site : Site) :
  displayName site = JsUndefined ->
  Str.contains "Display Name: undefined" (formattedSite host site)
  /\ Str.contains "Site: undefined" (formattedSites_entry host site).
Proof.
  intros H. split.
  - apply (in_order_contains ["ID: " ++ id site; "Display Name: undefined"]);
      [|right; left; reflexivity].
    unfold formattedSite. rewrite H.
    next_field ("• Site Details:" ++ Str.nl ++ "            ").
    next_field (Str.nl ++ "            ").
    exact I.
  - unfold formattedSites_entry. rewrite H.
    exists (Str.nl ++ "• "). eexists. reflexivity.
Qed.

Lemma missing_display_name_rendering_witness :
  Str.contains "Display Name: undefined"
    (formattedSite sample_host (with_displayName JsUndefined demo_site))
  /\ Str.contains "Site: undefined"
       (formattedSites_entry sample_host (with_displayName JsUndefined demo_site)).
Proof.
  apply (missing_display_name_rendering sample_host
           (with_displayName JsUndefined demo_site)).
  reflexivity.
Defined.

(** X12. The tools that are listed and the handlers that are called agree:
    the listed names are distinct, and a name is listed exactly when
    [toolHandlers[name]] is a handler of the table. *)
Theorem listed_tools_are_the_handlers (tool : string) :
  NoDup (map name TOOL_DEFINITIONS)
  /\ (In tool (map name TOOL_DEFINITIONS)
      <-> exists handler, toolHandlers_get tool = Handler handler).
Proof.
  split; [|split].
  - repeat constructor; simpl; intuition discriminate.
  - simpl. intros [<- | [<- | []]]; eexists; reflexivity.
  - unfold toolHandlers_get.
    destruct (assoc tool toolHandlers) as [h|] eqn:E.
    + intros _. exact (assoc_in tool toolHandlers h E).
    + destruct (assoc tool Object_prototype); intros [h H]; discriminate H.
Qed.

(** * Properties of the start of the process *)

Lemma token_read (env : Startup.Env) (token : string) :
  assoc "WEBFLOW_API_TOKEN" env = Some token -> token <> "" ->
  Startup.accessToken env = Returned token /\ Startup.missingVars env = [].
Proof.
  intros E Hne. unfold Startup.accessToken, Startup.missingVars, Startup.env_truthy.
  simpl. rewrite E. destruct token; [contradiction | now split].
Qed.

(** X13. Without the variable [WEBFLOW_API_TOKEN], or with an empty one,
    the module stops at its first statement with the error
    [WEBFLOW_API_TOKEN is not defined]: no server is made, no handler is
    registered, [main] is not called and nothing is written. *)
Theorem missing_token_stops_the_module (env : Startup.Env) (sdk : Startup.Sdk) :
  assoc "WEBFLOW_API_TOKEN" env = None \/ assoc "WEBFLOW_API_TOKEN" env = Some "" ->
  Startup.program env sdk =
    ([], Startup.Raised (new_Error "WEBFLOW_API_TOKEN is not defined")).
Proof.
  intros [E | E]; unfold Startup.program, Startup.accessToken; now rewrite E.
Qed.

Lemma missing_token_stops_the_module_witness :
  Startup.program [("WEBFLOW_API_TOKEN", "")] Startup.working_sdk =
    ([], Startup.Raised (new_Error "WEBFLOW_API_TOKEN is not defined")).
Proof.
  apply (missing_token_stops_the_module [("WEBFLOW_API_TOKEN", "")] Startup.working_sdk).
  right. reflexivity.
Defined.

(** X14. The check of [main] for missing variables never fires: whenever
    the module gets past reading the token no variable is missing, and no
    run writes the line [Missing required environment variables]. *)
Theorem missing_variables_check_never_fires (env : Startup.Env) (sdk : Startup.Sdk) :
  ((exists error, Startup.accessToken env = Thrown error /\ fst (Startup.program env sdk) = [])
   \/ Startup.missingVars env = [])
  /\ Forall (fun s => ~ Startup.logs_prefix "Missing required environment variables" s)
       (fst (Startup.program env sdk)).
Proof.
  destruct (assoc "WEBFLOW_API_TOKEN" env) as [[|ch token]|] eqn:E.
  - rewrite (missing_token_stops_the_module env sdk (or_intror E)).
    split; [|constructor]. left. eexists. split; [|reflexivity].
    unfold Startup.accessToken. now rewrite E.
  - assert (Hne : String ch token <> "") by discriminate.
    destruct (token_read env (String ch token) E Hne) as [Htok Hmiss].
    split; [now right|].
    unfold Startup.program, Startup.main. rewrite Htok, Hmiss.
    destruct sdk as [[[]|e1] [[]|e2]]; simpl;
      repeat constructor;
      intros (rest & more & H); simpl in H; discriminate H.
  - rewrite (missing_token_stops_the_module env sdk (or_introl E)).
    split; [|constructor]. left. eexists. split; [|reflexivity].
    unfold Startup.accessToken. now rewrite E.
Qed.

(** X15. With a non-empty token and a protocol library that works, the
    server is made, the two handlers are registered, the transport is
    connected and the start completes; what is written is the same for
    every token, and the place of the token says [REDACTED]. *)
Theorem start_with_token (env : Startup.Env) (sdk : Startup.Sdk) (token : string) :
  assoc "WEBFLOW_API_TOKEN" env = Some token -> token <> "" ->
  Startup.new_transport sdk = Returned tt ->
  Startup.connect sdk = Returned tt ->
  Startup.accessToken env = Returned token
  /\ Startup.program env sdk =
       ([Startup.NewServer;
         Startup.SetRequestHandler "ListToolsRequestSchema";
         Startup.SetRequestHandler "CallToolRequestSchema";
         Startup.Log [VStr "Starting server with env vars:";
                      VObj [("WEBFLOW_API_TOKEN", VStr "[REDACTED]")]];
         Startup.NewStdioServerTransport;
         Startup.Log [VStr "Created transport"];
         Startup.ServerConnect;
         Startup.Log [VStr "Connected to transport"];
         Startup.Log [VStr "Webflow MCP Server running on stdio"]],
        Startup.Completed tt).
Proof.
  intros E Hne Ht Hc.
  destruct (token_read env token E Hne) as [Htok Hmiss].
  split; [exact Htok|].
  unfold Startup.program, Startup.main. rewrite Htok, Hmiss, Ht, Hc. reflexivity.
Qed.

Lemma start_with_token_witness :
  Startup.accessToken Startup.sample_env = Returned "token"
  /\ Startup.program Startup.sample_env Startup.working_sdk =
       ([Startup.NewServer;
         Startup.SetRequestHandler "ListToolsRequestSchema";
         Startup.SetRequestHandler "CallToolRequestSchema";
         Startup.Log [VStr "Starting server with env vars:";
                      VObj [("WEBFLOW_API_TOKEN", VStr "[REDACTED]")]];
         Startup.NewStdioServerTransport;
         Startup.Log [VStr "Created transport"];
         Startup.ServerConnect;
         Startup.Log [VStr "Connected to transport"];
         Startup.Log [VStr "Webflow MCP Server running on stdio"]],
        Startup.Completed tt).
Proof.
  apply (start_with_token Startup.sample_env Startup.working_sdk "token").
  - reflexivity.
  - discriminate.
  - reflexivity.
  - reflexivity.
Defined.

(** X16. With a non-empty token, when making the transport or connecting
    it throws, [main] writes [Startup error:] with the error and leaves the
    process with code 1; nothing is written after that. *)
Theorem startup_failure_exits (env : Startup.Env) (sdk : Startup.Sdk)
    (token : string) (error : value) :
  assoc "WEBFLOW_API_TOKEN" env = Some token -> token <> "" ->
  Startup.new_transport sdk = Thrown error
  \/ (Startup.new_transport sdk = Returned tt /\ Startup.connect sdk = Thrown error) ->
  exists before,
    Startup.program env sdk =
      ((before ++ [Startup.Log [VStr "Startup error:"; error]])%list, Startup.Exited 1%Z)
    /\ Forall (fun s => ~ Startup.logs_prefix "Connected to transport" s) before.
Proof.
  intros E Hne H.
  destruct (token_read env token E Hne) as [Htok Hmiss].
  unfold Startup.program, Startup.main. rewrite Htok, Hmiss.
  destruct H as [Ht | [Ht Hc]].
  - rewrite Ht. simpl. eexists (_ :: _ :: _ :: _ :: _ :: nil).
    split; [reflexivity|].
    repeat constructor; intros (rest & more & H); simpl in H; discriminate H.
  - rewrite Ht, Hc. simpl. eexists (_ :: _ :: _ :: _ :: _ :: _ :: _ :: nil).
    split; [reflexivity|].
    repeat constructor; intros (rest & more & H); simpl in H; discriminate H.
Qed.

Lemma startup_failure_exits_witness :
  exists before,
    Startup.program Startup.sample_env
        {| Startup.new_transport := Returned tt; Startup.connect := Thrown network_error |} =
      ((before ++ [Startup.Log [VStr "Startup error:"; network_error]])%list,
       Startup.Exited 1%Z)
    /\ Forall (fun s => ~ Startup.logs_prefix "Connected to transport" s) before.
Proof.
  apply (startup_failure_exits Startup.sample_env
           {| Startup.new_transport := Returned tt; Startup.connect := Thrown network_error |}
           "token" network_error).
  - reflexivity.
  - discriminate.
  - right. split; reflexivity.
Defined.

(** X17. Every run of the module ends in one of three ways: with the
    token error and nothing done, with the process left with code 1, or
    with the start completed, which takes a transport that was made and
    connected.  The handler attached to the promise of [main] never runs:
    no run writes [Fatal error in main()]. *)
Theorem program_endings (env : Startup.Env) (sdk : Startup.Sdk) :
  match snd (Startup.program env sdk) with
  | Startup.Raised error =>
      error = new_Error "WEBFLOW_API_TOKEN is not defined"
      /\ fst (Startup.program env sdk) = []
  | Startup.Exited code => code = 1%Z
  | Startup.Completed _ =>
      Startup.new_transport sdk = Returned tt /\ Startup.connect sdk = Returned tt
  end
  /\ Forall (fun s => ~ Startup.logs_prefix "Fatal error in main()" s)
       (fst (Startup.program env sdk)).
Proof.
  destruct (assoc "WEBFLOW_API_TOKEN" env) as [[|ch token]|] eqn:E.
  - rewrite (missing_token_stops_the_module env sdk (or_intror E)).
    simpl. repeat split. constructor.
  - assert (Hne : String ch token <> "") by discriminate.
    destruct (token_read env (String ch token) E Hne) as [Htok Hmiss].
    unfold Startup.program, Startup.main. rewrite Htok, Hmiss.
    destruct sdk as [[[]|e1] [[]|e2]]; simpl; (split; [repeat split|]);
      repeat constructor;
      intros (rest & more & H); simpl in H; discriminate H.
  - rewrite (missing_token_stops_the_module env sdk (or_introl E)).
    simpl. repeat split. constructor.
Qed.
